(** * Contact-intake prototypes: a shallow embedding of the Python sources

    The repository holds two Flask prototypes and one Lambda hook:

    - [first-attempt-flask-web-app/backend/app.py]: the [/ping] health
      check. The file also holds a [/submit_contact] route, but every
      line of it is a comment, and the names [request] and [redirect]
      it uses are not imported: it is not part of the program and is
      not embedded;
    - [first-attempt-flask-web-app/backend/pre-signup.py]: the Cognito
      pre-sign-up hook [lambda_handler];
    - [first-attempt-flask-web-app/backend/scan_dynamodb.py]: a script
      that lists the tables and scans one;
    - [second-attempt-s3-web-app/backend/app.py]: three static pages and
      a [/submit_contact] route that prints the form to the console.

    Python values are embedded as an inductive type, dictionaries as
    [gmap string _], exceptions as a result type, and the effects of a
    handler (console output, writes to the DynamoDB table) as explicit
    state passing over a [World]. *)

From Stdlib Require Import ZArith QArith Ascii String.
From stdpp Require Import base option list strings gmap fin_maps.

Local Open Scope string_scope.
Local Open Scope Z_scope.

(** ** Python values *)

(** The JSON-shaped values a Lambda event or a [jsonify] payload is made
    of. *)
#[warnings="-register-all"]
Inductive value : Type :=
| VNone
| VBool (b : bool)
| VInt (n : Z)
| VFloat (x : Q)
| VStr (s : string)
| VList (l : list value)
| VDict (d : gmap string value).

(** Exceptions that the modelled code can raise. [KeyError],
    [TypeError], [AttributeError] and [IndexError] are raised by the
    interpreter; [BadRequestKeyError] by werkzeug's form lookup;
    [Exception msg] by an explicit [raise Exception(msg)]. *)
Inductive exn : Type :=
| KeyError (key : string)
| TypeError
| AttributeError
| IndexError
| BadRequestKeyError (key : string)
| Exception (msg : string).

Inductive result (A : Type) : Type :=
| Ok (a : A)
| Raise (e : exn).
Arguments Ok {A} a.
Arguments Raise {A} e.

(** ** The world a handler runs in *)

(** The item handed to [table.put_item(Item={...})]: a dictionary whose
    values are strings, or [None] for an absent optional form field. *)
Definition Item : Type := gmap string (option string).

(** What a call to the storage service does: it returns, or it raises
    an exception [e] whose [str(e)] is [text]. *)
Inductive put_outcome : Type :=
| PutOk
| PutRaises (text : string).

(** [stdout] holds the lines printed so far, oldest first; [put_log]
    the [put_item] calls issued so far (table name and item), oldest
    first; [dynamodb] is the behaviour of the external table service,
    which the code cannot influence. *)
Record World : Type := mkWorld {
  stdout : list string;
  put_log : list (string * Item);
  dynamodb : string -> Item -> put_outcome
}.

(** A computation with effects on the world that returns a value or
    raises. *)
Definition M (A : Type) : Type := World -> World * result A.

#[global] Instance M_ret : MRet M := fun A a w => (w, Ok a).

#[global] Instance M_bind : MBind M := fun A B k m w =>
  match m w with
  | (w', Ok a) => k a w'
  | (w', Raise e) => (w', Raise e)
  end.

(** [raise e]. *)
Definition raise {A} (e : exn) : M A := fun w => (w, Raise e).

(** [lift r] turns the result of a pure operation into a computation. *)
Definition lift {A} (r : result A) : M A := fun w => (w, r).

(** [print(a, b, ...)]: the arguments joined by one space, as a new line
    on the console. *)
Definition print (args : list string) : M unit :=
  fun w =>
    (mkWorld (stdout w ++ [String.concat " " args]) (put_log w) (dynamodb w),
     Ok tt).

(** The world after a sequence of calls, whatever they return. *)
Fixpoint run_all {A} (calls : list (M A)) (w : World) : World :=
  match calls with
  | [] => w
  | c :: cs => run_all cs (fst (c w))
  end.

(** ** Python operations used by the sources *)

(** [obj[key]] for a string key: a dictionary looks the key up and
    raises [KeyError] when it is absent; no other JSON value can be
    indexed by a string. *)
Definition getitem (obj : value) (key : string) : result value :=
  match obj with
  | VDict d =>
      match d !! key with
      | Some v => Ok v
      | None => Raise (KeyError key)
      end
  | _ => Raise TypeError
  end.

(** [s.split(sep)] for a one-character separator, which is how the
    source calls it: the pieces of [s] between the occurrences of
    [sep], always at least one piece. Strings are byte strings here;
    as ["@"] is ASCII and never occurs inside a UTF-8 multi-byte
    sequence, splitting bytes and splitting code points agree. *)
Fixpoint split (sep : ascii) (s : string) : list string :=
  match s with
  | EmptyString => [""]
  | String c rest =>
      if Ascii.eqb c sep then "" :: split sep rest
      else
        match split sep rest with
        | [] => [String c ""]
        | piece :: pieces => String c piece :: pieces
        end
  end.

(** [obj.split(sep)]: only a string has the method. *)
Definition method_split (obj : value) (sep : ascii) : result (list string) :=
  match obj with
  | VStr s => Ok (split sep s)
  | _ => Raise AttributeError
  end.

(** [l[i]] on a list, for [i >= 0]. *)
Definition list_getitem {A} (l : list A) (i : nat) : result A :=
  match l !! i with
  | Some x => Ok x
  | None => Raise IndexError
  end.

(** ** The Flask primitives used by the sources *)

(** The body of a response: text, a JSON document (kept as a value,
    not serialised), or the page werkzeug generates for a redirect. *)
Inductive body : Type :=
| TextBody (s : string)
| JsonBody (v : value)
| RedirectBody (location : string).

(** A response object. [headers] holds the headers a handler sets by
    name; [Content-Type] and [Content-Length], which Flask derives
    from the type and the body, are carried by [mimetype] and [data]
    and are not entries of [headers]. *)
Record Response : Type := mkResponse {
  status_code : Z;
  mimetype : string;
  headers : gmap string string;
  data : body
}.

(** What a view function may return: a string, a response object, or a
    pair of a response object and a status code. *)
Inductive view_rv : Type :=
| RvStr (s : string)
| RvResponse (r : Response)
| RvTuple (r : Response) (status : Z).

(** [jsonify(d)]: a 200 response of type [application/json]. *)
Definition jsonify (d : gmap string value) : Response :=
  mkResponse 200 "application/json" ∅ (JsonBody (VDict d)).

(** [make_response(rv)]: the response object for a view's return
    value. A string becomes a 200 [text/html] response; a status given
    in a pair overrides that of the response. *)
Definition make_response (rv : view_rv) : Response :=
  match rv with
  | RvStr s => mkResponse 200 "text/html" ∅ (TextBody s)
  | RvResponse r => r
  | RvTuple r status => mkResponse status (mimetype r) (headers r) (data r)
  end.

(** [response.headers[name] = v]. *)
Definition set_header (name v : string) (r : Response) : Response :=
  mkResponse (status_code r) (mimetype r) (<[name := v]> (headers r)) (data r).

(** The part of Flask's [request] the sources read: the submitted form,
    seen through single-value access. *)
Record Request : Type := mkRequest {
  form : gmap string string
}.

(** [request.form[key]]: werkzeug raises [BadRequestKeyError] for an
    absent key. *)
Definition form_getitem (request : Request) (key : string) : result string :=
  match form request !! key with
  | Some v => Ok v
  | None => Raise (BadRequestKeyError key)
  end.

(** The HTTP status an exception class stands for, when it is one of
    werkzeug's HTTP exceptions ([BadRequestKeyError.code] is 400). *)
Definition http_code (e : exn) : option Z :=
  match e with
  | BadRequestKeyError _ => Some 400
  | _ => None
  end.

(** ** first-attempt-flask-web-app/backend/pre-signup.py *)

Module PreSignup.
Section handler.

(** [json.dumps], whose output only reaches the console. *)
Variable json_dumps : value -> string.

Definition allowed_domains : list string :=
  ["example.com"; "connectingthedots.com"].

Definition rejection_message : string :=
  "Invalid email domain. Only @example.com and @connectingthedots.com are allowed.".

Definition lambda_handler (event context : value) : M value :=
  print ["Event: "; json_dumps event];;
  request ← lift (getitem event "request");
  userAttributes ← lift (getitem request "userAttributes");
  email ← lift (getitem userAttributes "email");
  pieces ← lift (method_split email "@");
  domain ← lift (list_getitem pieces 1);
  if bool_decide (domain ∉ allowed_domains)
  then raise (Exception rejection_message)
  else mret event.

End handler.
End PreSignup.

(** ** first-attempt-flask-web-app/backend/app.py *)

Module FirstAttempt.

(** [@app.route("/ping")]. *)
Definition ping (request : Request) : M view_rv :=
  let response := make_response (RvResponse (jsonify {[ "status" := VStr "alive" ]})) in
  let response := set_header "Access-Control-Allow-Origin" "*" response in
  let response := set_header "Access-Control-Allow-Methods" "GET, POST, OPTIONS" response in
  let response := set_header "Access-Control-Allow-Headers" "Content-Type" response in
  mret (RvResponse response).

End FirstAttempt.

(** ** second-attempt-s3-web-app/backend/app.py *)

Module SecondAttempt.

(** [@app.route('/')]. *)
Definition index (request : Request) : M view_rv :=
  mret (RvStr "Welcome to Connecting The Dots!").

(** [@app.route('/contact')]. *)
Definition contact (request : Request) : M view_rv :=
  mret (RvStr "Contact Page").

(** [@app.route('/dashboard')]. *)
Definition dashboard (request : Request) : M view_rv :=
  mret (RvStr "Dashboard Page").

Definition success_payload : gmap string value :=
  <[ "status" := VStr "success" ]>
  (<[ "message" := VStr "Form submitted successfully!" ]> ∅).

(** The f-string printed for a submission. *)
Definition received_line (first_name last_name email message : string) : string :=
  "Received contact form: " ++ first_name ++ " " ++ last_name ++ ", "
    ++ email ++ ", " ++ message.

(** [@app.route('/submit_contact', methods=['POST'])]. *)
Definition submit_contact (request : Request) : M view_rv :=
  first_name ← lift (form_getitem request "first_name");
  last_name ← lift (form_getitem request "last_name");
  email ← lift (form_getitem request "email");
  message ← lift (form_getitem request "message");
  print [received_line first_name last_name email message];;
  mret (RvResponse (jsonify success_payload)).

End SecondAttempt.

(** ** Observations used to state the properties *)

(** ['c' in s]. *)
Fixpoint contains (c : ascii) (s : string) : bool :=
  match s with
  | EmptyString => false
  | String c' rest => Ascii.eqb c' c || contains c rest
  end.

(** The value of [event['request']['userAttributes']['email']]. *)
Definition email_attribute (event : value) : result value :=
  match getitem event "request" with
  | Ok request =>
      match getitem request "userAttributes" with
      | Ok userAttributes => getitem userAttributes "email"
      | Raise e => Raise e
      end
  | Raise e => Raise e
  end.

(** The domain the pre-check looks at, [email.split('@')[1]]: the text
    after the first ["@"], up to the next ["@"] if there is one. *)
Definition email_domain (email : string) : option string :=
  split "@" email !! 1%nat.

(** The domain of an e-mail address in the ordinary sense, which is
    what the claim about the allow-list speaks of: the text after the
    last ["@"] of the address; [None] when the address has no ["@"].
    This definition does not come from the handler. *)
Fixpoint address_domain (email : string) : option string :=
  match email with
  | EmptyString => None
  | String c rest =>
      match address_domain rest with
      | Some domain => Some domain
      | None => if Ascii.eqb c "@" then Some rest else None
      end
  end.

(** The world after one more line on the console. *)
Definition printed (line : string) (w : World) : World :=
  mkWorld (stdout w ++ [line]) (put_log w) (dynamodb w).

(** The ["error"] entry of the JSON body a view returned, if any. *)
Definition error_message (rv : view_rv) : option value :=
  match data (make_response rv) with
  | JsonBody (VDict d) => d !! "error"
  | _ => None
  end.

(** ** Concrete requests, events and worlds *)

Definition form_of (fields : list (string * string)) : Request :=
  mkRequest (list_to_map fields).

(** A fresh console, no call made yet, and a table that accepts every
    item. *)
Definition quiet_world : World := mkWorld [] [] (fun _ _ => PutOk).

(** A table service that fails every call with the exception text
    [text]. *)
Definition failing_world (text : string) : World :=
  mkWorld [] [] (fun _ _ => PutRaises text).

Definition ada_hello : Request :=
  form_of [("first_name", "Ada"); ("last_name", "Lovelace");
           ("email", "ada@example.com"); ("message", "hello")].

Definition ada_without_message : Request :=
  form_of [("first_name", "Ada"); ("last_name", "Lovelace");
           ("email", "ada@example.com")].

Definition empty_first_name : Request :=
  form_of [("first_name", ""); ("last_name", "Lovelace");
           ("email", "ada@example.com"); ("message", "hello")].

Definition ada_without_last_name : Request :=
  form_of [("first_name", "Ada"); ("message", "hello")].

Definition all_empty : Request :=
  form_of [("first_name", ""); ("last_name", ""); ("email", "");
           ("message", "")].

(** A pre-sign-up event that carries only the e-mail attribute. *)
Definition signup_event (email : string) : value :=
  VDict {[ "request" :=
    VDict {[ "userAttributes" := VDict {[ "email" := VStr email ]} ]} ]}.

(** A [json.dumps] stand-in for concrete runs. *)
Definition no_dump (v : value) : string := "<event>".

(** ** first-attempt-flask-web-app/backend/scan_dynamodb.py *)

Module ScanDynamodb.
Section script.

(** [str(x)], as [print] shows a value that is not a string. *)
Variable py_str : value -> string.

(** [boto3.client('dynamodb')]: the client is built, or the call
    raises. *)
Variable client : result unit.

(** What iterating [paginator.paginate()] for [list_tables] yields,
    in order: each step fetches a page or raises; the end of the list
    is the end of the iteration. *)
Variable list_tables_pages : list (result value).

(** [client.scan(TableName=name)]: the response, or the exception
    raised. *)
Variable scan : string -> result value.

(** The [for page in paginator_iterator] loop. *)
Fixpoint print_pages (pages : list (result value)) : M unit :=
  match pages with
  | [] => mret tt
  | Ok page :: rest =>
      names ← lift (getitem page "TableNames");
      print [py_str names];;
      print_pages rest
  | Raise e :: _ => raise e
  end.

(** The script, top to bottom. *)
Definition main : M unit :=
  lift client;;
  print_pages list_tables_pages;;
  response ← lift (scan "ConnectingTheDotsDBTable");
  items ← lift (getitem response "Items");
  print [py_str items].

End script.
End ScanDynamodb.

(** ** Further observations *)

(** [s.count(c)]: the number of occurrences of [c] in [s]. *)
Fixpoint count (c : ascii) (s : string) : nat :=
  match s with
  | EmptyString => 0%nat
  | String c' rest => ((if Ascii.eqb c' c then 1 else 0) + count c rest)%nat
  end.

(** The four form fields the second attempt's [/submit_contact]
    reads, in the order it reads them. *)
Definition contact_fields : list string :=
  ["first_name"; "last_name"; "email"; "message"].

(** The line the second attempt's [/submit_contact] prints for a form
    that has all four fields; [None] for a form that lacks one. *)
Definition submission_line (request : Request) : option string :=
  first_name ← form request !! "first_name";
  last_name ← form request !! "last_name";
  email ← form request !! "email";
  message ← form request !! "message";
  Some (SecondAttempt.received_line first_name last_name email message).

(** The world after several more lines on the console. *)
Definition printed_lines (lines : list string) (w : World) : World :=
  mkWorld (stdout w ++ lines) (put_log w) (dynamodb w).

(** What one step of the page loop gives to [print]: the page's
    [TableNames], unless fetching the page or the lookup raises. *)
Definition page_names (step : result value) : result value :=
  match step with
  | Ok page => getitem page "TableNames"
  | Raise e => Raise e
  end.

(** A [list_tables] page and a [scan] response. *)
Definition tables_page (names : list string) : value :=
  VDict {[ "TableNames" := VList (VStr <$> names) ]}.

Definition scan_response (items : list value) : value :=
  VDict {[ "Items" := VList items ]}.

(** * Properties *)

(** ** [split] *)

Lemma split_not_nil sep s : split sep s ≠ [].
Proof.
  destruct s as [|c rest]; simpl; [done|].
  destruct (Ascii.eqb c sep); [done|].
  by destruct (split sep rest).
Qed.

(** Without the separator there is one piece, the string itself. *)
Lemma split_without_sep sep s : contains sep s = false → split sep s = [s].
Proof.
  induction s as [|c rest IH]; simpl; [done|].
  intros [Hc Hrest]%orb_false_iff.
  by rewrite Hc, (IH Hrest).
Qed.

(** With the separator there are at least two pieces. *)
Lemma split_with_sep sep s :
  contains sep s = true → ∃ piece domain rest, split sep s = piece :: domain :: rest.
Proof.
  induction s as [|c rest IH]; simpl; [done|].
  destruct (Ascii.eqb c sep) eqn:Hc; simpl.
  - intros _. destruct (split sep rest) as [|p ps] eqn:Hs.
    + by apply split_not_nil in Hs.
    + by exists "", p, ps.
  - intros (p & d & ps & ->)%IH. by exists (String c p), d, ps.
Qed.

(** The pieces of [local ++ sep ++ s] when [local] is free of [sep]. *)
Lemma split_app sep local s :
  contains sep local = false →
  split sep (local ++ String sep s) = local :: split sep s.
Proof.
  induction local as [|c rest IH]; simpl.
  - intros _. by rewrite Ascii.eqb_refl.
  - intros [Hc Hrest]%orb_false_iff. by rewrite Hc, (IH Hrest).
Qed.

Lemma email_domain_None email :
  email_domain email = None ↔ contains "@" email = false.
Proof.
  unfold email_domain. split.
  - destruct (contains "@" email) eqn:Hc; [|done].
    destruct (split_with_sep _ _ Hc) as (p & d & ps & ->). done.
  - intros Hc. by rewrite (split_without_sep _ _ Hc).
Qed.

(** For an address of the usual shape the domain is what follows the
    ["@"]. *)
Lemma email_domain_usual local domain :
  contains "@" local = false → contains "@" domain = false →
  email_domain (local ++ String "@" domain) = Some domain.
Proof.
  intros Hl Hd. unfold email_domain.
  by rewrite (split_app _ _ _ Hl), (split_without_sep _ _ Hd).
Qed.

(** The handler's domain is the second piece: with a second ["@"] it
    stops there. *)
Example email_domain_second_at :
  email_domain "user@example.com@other.org" = Some "example.com".
Proof. reflexivity. Qed.

(** ** The domain of an address *)

Lemma address_domain_None email :
  address_domain email = None ↔ contains "@" email = false.
Proof.
  induction email as [|c rest IH]; simpl; [done|].
  destruct (address_domain rest) as [domain|].
  - split; [done|]. intros [_ Hrest]%orb_false_iff.
    by apply IH in Hrest.
  - rewrite (proj1 IH eq_refl), orb_false_r.
    by destruct (Ascii.eqb c "@").
Qed.

(** The domain of [local@domain], when [domain] has no ["@"], is
    [domain], whatever [local] is. *)
Lemma address_domain_usual local domain :
  contains "@" domain = false →
  address_domain (local ++ String "@" domain) = Some domain.
Proof.
  intros Hd. induction local as [|c rest IH].
  - change (address_domain (String "@" domain) = Some domain). simpl.
    by rewrite (proj2 (address_domain_None domain) Hd).
  - change (address_domain (String c (rest ++ String "@" domain)) = Some domain).
    simpl. by rewrite IH.
Qed.

(** On an address with a single ["@"] the piece the handler looks at
    is the domain of the address. *)
Lemma email_domain_single_at email :
  count "@" email = 1%nat → email_domain email = address_domain email.
Proof.
  unfold email_domain. induction email as [|c rest IH]; simpl; [done|].
  destruct (Ascii.eqb c "@") eqn:Hc; simpl.
  - intros [= Hrest].
    assert (contains "@" rest = false) as Hno.
    { clear -Hrest. induction rest as [|c' rest IH]; simpl in *; [done|].
      destruct (Ascii.eqb c' "@"); [done|]. by rewrite IH. }
    by rewrite (split_without_sep _ _ Hno), (proj2 (address_domain_None rest) Hno).
  - intros Hrest. specialize (IH Hrest).
    destruct (split "@" rest) as [|piece pieces] eqn:Hs;
      [by apply split_not_nil in Hs|].
    simpl in *. rewrite <- IH.
    destruct pieces as [|domain pieces]; [|done].
    assert (length (split "@" rest) = 1%nat) as Hlen by by rewrite Hs.
    clear -Hlen Hrest. exfalso.
    assert (length (split "@" rest) = S (count "@" rest)) as Hcount.
    { clear. induction rest as [|c rest IH]; simpl; [done|].
      destruct (Ascii.eqb c "@"); simpl; [by rewrite IH|].
      destruct (split "@" rest); simpl in *; [done|]. by rewrite IH. }
    lia.
Qed.

(** ** The pre-sign-up hook, case by case *)

(** A subscript fails with [TypeError] or [KeyError] only. *)
Lemma getitem_raises obj key e :
  getitem obj key = Raise e → e = TypeError ∨ e = KeyError key.
Proof.
  destruct obj as [| | | | | |d]; simpl; try (intros [= <-]; by left).
  destruct (d !! key); [done|]. intros [= <-]. by right.
Qed.

Lemma email_attribute_raises event e :
  email_attribute event = Raise e → e = TypeError ∨ ∃ key, e = KeyError key.
Proof.
  unfold email_attribute.
  destruct (getitem event "request") as [request|e1] eqn:H1.
  - destruct (getitem request "userAttributes") as [attrs|e2] eqn:H2.
    + intros [?|?]%getitem_raises; eauto.
    + intros [= <-]. apply getitem_raises in H2 as [?|?]; eauto.
  - intros [= <-]. apply getitem_raises in H1 as [?|?]; eauto.
Qed.

Section presignup_cases.
Context (json_dumps : value → string).
Implicit Types (event context : value) (w : World).

Abbreviation handler := (PreSignup.lambda_handler json_dumps).
Abbreviation logged event w :=
  (printed (String.concat " " ["Event: "; json_dumps event]) w).

(** The handler prints the event and nothing else happens to the
    world. *)
Lemma handler_world event context w :
  fst (handler event context w) = logged event w.
Proof.
  unfold PreSignup.lambda_handler, mbind, M_bind, lift, raise, mret, M_ret, print.
  simpl.
  destruct (getitem event "request") as [request|]; [|done].
  destruct (getitem request "userAttributes") as [attrs|]; [|done].
  destruct (getitem attrs "email") as [email|]; [|done].
  destruct (method_split email "@") as [pieces|]; [|done].
  destruct (list_getitem pieces 1) as [domain|]; [|done].
  by case_bool_decide.
Qed.

(** The outcome as a function of the e-mail attribute. *)
Lemma handler_outcome event context w :
  snd (handler event context w) =
    match email_attribute event with
    | Raise e => Raise e
    | Ok (VStr email) =>
        match email_domain email with
        | None => Raise IndexError
        | Some domain =>
            if bool_decide (domain ∉ PreSignup.allowed_domains)
            then Raise (Exception PreSignup.rejection_message)
            else Ok event
        end
    | Ok _ => Raise AttributeError
    end.
Proof.
  unfold PreSignup.lambda_handler, email_attribute, email_domain,
    mbind, M_bind, lift, raise, mret, M_ret, print.
  simpl.
  destruct (getitem event "request") as [request|]; [|done].
  destruct (getitem request "userAttributes") as [attrs|]; [|done].
  destruct (getitem attrs "email") as [email|]; [|done].
  destruct email as [| | | |email| |]; simpl; try done.
  unfold list_getitem.
  destruct (split "@" email !! 1%nat) as [domain|]; [|done].
  by case_bool_decide.
Qed.

End presignup_cases.

(** On an address with a single ["@"] the hook decides on the domain
    of the address: it returns the event when that domain is in the
    allow-list and raises its rejection otherwise. *)
Lemma precheck_right_on_single_at
    (json_dumps : value → string) (event context : value) (w : World)
    (email : string) :
  email_attribute event = Ok (VStr email) →
  count "@" email = 1%nat →
  ∃ domain,
    address_domain email = Some domain
    ∧ snd (PreSignup.lambda_handler json_dumps event context w)
        = if bool_decide (domain ∈ PreSignup.allowed_domains)
          then Ok event
          else Raise (Exception PreSignup.rejection_message).
Proof.
  intros Hattr Hone. rewrite handler_outcome, Hattr.
  rewrite (email_domain_single_at _ Hone).
  destruct (address_domain email) as [domain|] eqn:Hdom.
  - exists domain. split; [done|]. case_bool_decide as Hin.
    + by rewrite bool_decide_eq_false_2.
    + by rewrite bool_decide_eq_true_2.
  - apply address_domain_None in Hdom. exfalso.
    clear -Hdom Hone. induction email as [|c rest IH]; simpl in *; [done|].
    apply orb_false_iff in Hdom as [Hc Hrest]. rewrite Hc in Hone. by apply IH.
Qed.

(** ** The second attempt's [/submit_contact], case by case *)

(** The four lookups in source order decide everything: the first
    absent field raises and leaves the world alone; with all four
    present the line is printed and the success payload returned. *)
Lemma submit_contact_cases request w :
  SecondAttempt.submit_contact request w =
    match form request !! "first_name" with
    | None => (w, Raise (BadRequestKeyError "first_name"))
    | Some first_name =>
      match form request !! "last_name" with
      | None => (w, Raise (BadRequestKeyError "last_name"))
      | Some last_name =>
        match form request !! "email" with
        | None => (w, Raise (BadRequestKeyError "email"))
        | Some email =>
          match form request !! "message" with
          | None => (w, Raise (BadRequestKeyError "message"))
          | Some message =>
              (printed (SecondAttempt.received_line first_name last_name email message) w,
               Ok (RvResponse (jsonify SecondAttempt.success_payload)))
          end
        end
      end
    end.
Proof.
  unfold SecondAttempt.submit_contact, form_getitem, mbind, M_bind, lift.
  destruct (form request !! "first_name"); [|done].
  destruct (form request !! "last_name"); [|done].
  destruct (form request !! "email"); [|done].
  by destruct (form request !! "message").
Qed.

(** The form of the spec's second scenario, which has an empty
    first_name and no message field: the lookups of first_name,
    last_name and email succeed, and the lookup of message raises. *)
Example empty_first_name_without_message :
  SecondAttempt.submit_contact
      (form_of [("first_name", ""); ("last_name", "Lovelace");
                ("email", "ada@example.com")]) quiet_world
    = (quiet_world, Raise (BadRequestKeyError "message")).
Proof. rewrite submit_contact_cases. reflexivity. Qed.

(** * The claims *)

(** C1 (amended): whenever first_name, last_name or email is absent
    from the form, the second attempt's [/submit_contact] raises
    werkzeug's [BadRequestKeyError] (HTTP code 400) carrying the name
    of the first absent field in the order first_name, last_name,
    email (every field before it in that order is present), and
    leaves the world as it was: nothing is printed and the table is
    not called. *)
Theorem submit_contact_missing_required_field request w :
  form request !! "first_name" = None ∨ form request !! "last_name" = None
    ∨ form request !! "email" = None →
  ∃ (i : nat) field,
    ["first_name"; "last_name"; "email"] !! i = Some field
    ∧ form request !! field = None
    ∧ (∀ (j : nat) earlier,
         (j < i)%nat →
         ["first_name"; "last_name"; "email"] !! j = Some earlier →
         is_Some (form request !! earlier))
    ∧ SecondAttempt.submit_contact request w = (w, Raise (BadRequestKeyError field))
    ∧ http_code (BadRequestKeyError field) = Some 400.
Proof.
  intros Hmissing. rewrite submit_contact_cases.
  destruct (form request !! "first_name") eqn:Hf.
  2:{ exists 0%nat, "first_name". split_and!; [done..| |done|done].
      intros j ? Hj. lia. }
  destruct (form request !! "last_name") eqn:Hl.
  2:{ exists 1%nat, "last_name". split_and!; [done..| |done|done].
      intros [|j] earlier Hj; [|lia]. intros [= <-]. by rewrite Hf. }
  destruct (form request !! "email") eqn:He.
  2:{ exists 2%nat, "email". split_and!; [done..| |done|done].
      intros [|[|j]] earlier Hj; [| |lia]; intros [= <-]; by rewrite ?Hf, ?Hl. }
  by destruct Hmissing as [?|[?|?]].
Qed.

Lemma submit_contact_missing_required_field_witness :
  ∃ (i : nat) field,
    ["first_name"; "last_name"; "email"] !! i = Some field
    ∧ form ada_without_last_name !! field = None
    ∧ (∀ (j : nat) earlier,
         (j < i)%nat →
         ["first_name"; "last_name"; "email"] !! j = Some earlier →
         is_Some (form ada_without_last_name !! earlier))
    ∧ SecondAttempt.submit_contact ada_without_last_name quiet_world
        = (quiet_world, Raise (BadRequestKeyError field))
    ∧ http_code (BadRequestKeyError field) = Some 400.
Proof.
  apply (submit_contact_missing_required_field ada_without_last_name quiet_world).
  right. left. vm_compute. reflexivity.
Defined.

(** C1 (as stated) fails: a submission whose first_name is the empty
    string, with the other fields present, is answered with the 200
    success payload, not with a client error. *)
Lemma submit_contact_accepts_empty_first_name :
  form empty_first_name !! "first_name" = Some ""
  ∧ snd (SecondAttempt.submit_contact empty_first_name quiet_world)
      = Ok (RvResponse (jsonify SecondAttempt.success_payload))
  ∧ status_code (jsonify SecondAttempt.success_payload) = 200
  ∧ error_message (RvResponse (jsonify SecondAttempt.success_payload)) = None.
Proof. repeat split; vm_compute; reflexivity. Qed.




(** C3 (amended): the second attempt's [/submit_contact] returns
    success only if the form contains the fields first_name,
    last_name, email and message; it does not look at their values. *)
Theorem submit_contact_accepts_only_complete_forms request w rv :
  snd (SecondAttempt.submit_contact request w) = Ok rv →
  is_Some (form request !! "first_name")
  ∧ is_Some (form request !! "last_name")
  ∧ is_Some (form request !! "email")
  ∧ is_Some (form request !! "message").
Proof.
  rewrite submit_contact_cases.
  destruct (form request !! "first_name"); [|done].
  destruct (form request !! "last_name"); [|done].
  destruct (form request !! "email"); [|done].
  destruct (form request !! "message"); [|done].
  by eauto.
Qed.

Lemma submit_contact_accepts_only_complete_forms_witness :
  is_Some (form ada_hello !! "first_name")
  ∧ is_Some (form ada_hello !! "last_name")
  ∧ is_Some (form ada_hello !! "email")
  ∧ is_Some (form ada_hello !! "message").
Proof.
  apply (submit_contact_accepts_only_complete_forms ada_hello quiet_world
           (RvResponse (jsonify SecondAttempt.success_payload))).
  vm_compute. reflexivity.
Defined.

(** C3 (as stated) fails: a submission whose first_name, last_name and
    email are all empty, so that the email has no ["@"] and no domain,
    is accepted. *)
Lemma submit_contact_accepts_all_empty :
  form all_empty !! "first_name" = Some ""
  ∧ form all_empty !! "last_name" = Some ""
  ∧ form all_empty !! "email" = Some ""
  ∧ contains "@" "" = false
  ∧ snd (SecondAttempt.submit_contact all_empty quiet_world)
      = Ok (RvResponse (jsonify SecondAttempt.success_payload)).
Proof. repeat split; vm_compute; reflexivity. Qed.

(** C4 (the code departs from it): the hook tests the text between
    the first and the second ["@"], not the domain of the address. An
    address whose domain, elsewhere.net, is outside the allow-list is
    let through because example.com stands between its two ["@"]; and
    an address whose domain is example.com is rejected because
    other.org stands there. *)
Theorem precheck_misjudges_domain_with_two_ats
    (json_dumps : value → string) (context : value) (w : World) :
  (address_domain "eve@example.com@elsewhere.net" = Some "elsewhere.net"
   ∧ ¬ ("elsewhere.net" ∈ ["example.com"; "connectingthedots.com"])
   ∧ snd (PreSignup.lambda_handler json_dumps
            (signup_event "eve@example.com@elsewhere.net") context w)
       = Ok (signup_event "eve@example.com@elsewhere.net"))
  ∧ (address_domain "user@other.org@example.com" = Some "example.com"
     ∧ "example.com" ∈ ["example.com"; "connectingthedots.com"]
     ∧ snd (PreSignup.lambda_handler json_dumps
              (signup_event "user@other.org@example.com") context w)
         = Raise (Exception PreSignup.rejection_message)).
Proof.
  split; split_and!.
  - reflexivity.
  - intros Hin. set_unfold. by destruct Hin as [?|[?|[]]].
  - rewrite handler_outcome. reflexivity.
  - reflexivity.
  - by constructor.
  - rewrite handler_outcome. reflexivity.
Qed.

(** C5: whatever calls came before, [/ping] returns a 200 response
    whose JSON body is exactly [{"status": "alive"}] and whose
    Access-Control-Allow-Origin header is [*], and it leaves the world,
    the table's call log included, as it found it. *)
Theorem ping_alive (history : list (M view_rv)) (w : World) (request : Request) :
  ∃ response,
    FirstAttempt.ping request (run_all history w)
      = (run_all history w, Ok (RvResponse response))
    ∧ status_code response = 200
    ∧ data response = JsonBody (VDict {[ "status" := VStr "alive" ]})
    ∧ headers response !! "Access-Control-Allow-Origin" = Some "*".
Proof.
  eexists. split; [reflexivity|]. split_and!; [done..|].
  vm_compute. reflexivity.
Qed.

(** C6: each static page is a constant: the index view returns
    "Welcome to Connecting The Dots!", the contact view "Contact Page"
    and the dashboard view "Dashboard Page", for every request and
    every world, which they leave unchanged. *)
Theorem static_pages_constant (request : Request) (w : World) :
  SecondAttempt.index request w = (w, Ok (RvStr "Welcome to Connecting The Dots!"))
  ∧ SecondAttempt.contact request w = (w, Ok (RvStr "Contact Page"))
  ∧ SecondAttempt.dashboard request w = (w, Ok (RvStr "Dashboard Page"))
  ∧ data (make_response (RvStr "Welcome to Connecting The Dots!"))
      = TextBody "Welcome to Connecting The Dots!"
  ∧ data (make_response (RvStr "Contact Page")) = TextBody "Contact Page"
  ∧ data (make_response (RvStr "Dashboard Page")) = TextBody "Dashboard Page".
Proof. by split_and!. Qed.

(** C8: a request without a message field never gets the success
    response from the second attempt's [/submit_contact]; when the
    other three fields are present, the lookup of "message" is what
    fails, with [BadRequestKeyError], and nothing is printed. *)
Theorem message_is_required (request : Request) (w : World) :
  form request !! "message" = None →
  (∀ rv, snd (SecondAttempt.submit_contact request w) ≠ Ok rv)
  ∧ (is_Some (form request !! "first_name") →
     is_Some (form request !! "last_name") →
     is_Some (form request !! "email") →
     SecondAttempt.submit_contact request w = (w, Raise (BadRequestKeyError "message"))).
Proof.
  intros Hm. rewrite submit_contact_cases, Hm. split.
  - intros rv.
    destruct (form request !! "first_name"); [|done].
    destruct (form request !! "last_name"); [|done].
    by destruct (form request !! "email").
  - by intros [? ->] [? ->] [? ->].
Qed.

Lemma message_is_required_witness :
  (∀ rv, snd (SecondAttempt.submit_contact ada_without_message quiet_world) ≠ Ok rv)
  ∧ (is_Some (form ada_without_message !! "first_name") →
     is_Some (form ada_without_message !! "last_name") →
     is_Some (form ada_without_message !! "email") →
     SecondAttempt.submit_contact ada_without_message quiet_world
       = (quiet_world, Raise (BadRequestKeyError "message"))).
Proof.
  apply (message_is_required ada_without_message quiet_world).
  vm_compute. reflexivity.
Defined.

(** C9: when the e-mail attribute is a string without ["@"], the
    pre-sign-up hook prints the event and then fails with
    [IndexError], whatever the allow-list would have said; and it
    reaches one of its two intended outcomes, returning or raising its
    own exception, only for an e-mail that contains ["@"]. *)
Theorem precheck_needs_at_sign
    (json_dumps : value → string) (event context : value) (w : World) :
  (∀ email,
      email_attribute event = Ok (VStr email) →
      contains "@" email = false →
      PreSignup.lambda_handler json_dumps event context w
        = (printed (String.concat " " ["Event: "; json_dumps event]) w,
           Raise IndexError))
  ∧ (∀ v msg,
      snd (PreSignup.lambda_handler json_dumps event context w) = Ok v
        ∨ snd (PreSignup.lambda_handler json_dumps event context w)
            = Raise (Exception msg) →
      ∃ email,
        email_attribute event = Ok (VStr email) ∧ contains "@" email = true).
Proof.
  split.
  - intros email Hattr Hno. apply injective_projections.
    + apply handler_world.
    + rewrite handler_outcome, Hattr.
      by rewrite (proj2 (email_domain_None email) Hno).
  - intros v msg. rewrite handler_outcome.
    destruct (email_attribute event) as [[| | | |email| |]|e] eqn:He.
    1-4, 6-7: by intros [?|?].
    + destruct (contains "@" email) eqn:Hc; [by eauto|].
      rewrite (proj2 (email_domain_None email) Hc). by intros [?|?].
    + intros [?|[= ->]]; [done|].
      by apply email_attribute_raises in He as [?|[? ?]].
Qed.

Lemma precheck_needs_at_sign_witness :
  email_attribute (signup_event "user.example.com") = Ok (VStr "user.example.com")
  ∧ contains "@" "user.example.com" = false
  ∧ PreSignup.lambda_handler no_dump (signup_event "user.example.com") VNone quiet_world
      = (printed "Event:  <event>" quiet_world, Raise IndexError).
Proof.
  split; [reflexivity|]. split; [reflexivity|].
  apply (proj1 (precheck_needs_at_sign no_dump
                  (signup_event "user.example.com") VNone quiet_world)
           "user.example.com"); reflexivity.
Defined.

(** C10: when the e-mail attribute's domain is in the allow-list, the
    pre-sign-up hook returns the very event it was given; its only
    effect is the line it prints. *)
Theorem precheck_returns_event_unchanged
    (json_dumps : value → string) (event context : value) (w : World)
    (email domain : string) :
  email_attribute event = Ok (VStr email) →
  email_domain email = Some domain →
  domain ∈ PreSignup.allowed_domains →
  PreSignup.lambda_handler json_dumps event context w
    = (printed (String.concat " " ["Event: "; json_dumps event]) w, Ok event).
Proof.
  intros Hattr Hdom Hallowed. apply injective_projections.
  - apply handler_world.
  - rewrite handler_outcome, Hattr, Hdom.
    rewrite bool_decide_eq_false_2; [done|]. by intros Hn.
Qed.

Lemma precheck_returns_event_unchanged_witness :
  PreSignup.lambda_handler no_dump (signup_event "user@connectingthedots.com")
      VNone quiet_world
    = (printed "Event:  <event>" quiet_world,
       Ok (signup_event "user@connectingthedots.com")).
Proof.
  apply (precheck_returns_event_unchanged no_dump
           (signup_event "user@connectingthedots.com") VNone quiet_world
           "user@connectingthedots.com" "connectingthedots.com").
  - reflexivity.
  - reflexivity.
  - vm_compute. by repeat constructor.
Defined.

(** * Further properties of the sources *)

(** ** [email.split('@')] *)

(** X1: joining the pieces of a split with the separator gives the
    string back. *)
Theorem split_join (sep : ascii) (s : string) :
  String.concat (String sep "") (split sep s) = s.
Proof.
  induction s as [|c rest IH]; simpl; [done|].
  destruct (Ascii.eqb c sep) eqn:Hc.
  - apply Ascii.eqb_eq in Hc as ->.
    destruct (split sep rest) as [|p ps] eqn:Hs.
    + by apply split_not_nil in Hs.
    + simpl in *. by rewrite IH.
  - destruct (split sep rest) as [|p ps] eqn:Hs.
    + by apply split_not_nil in Hs.
    + rewrite <- IH. by destruct ps.
Qed.

(** X2: no piece of a split contains the separator. *)
Theorem split_pieces_free (sep : ascii) (s : string) :
  Forall (fun piece => contains sep piece = false) (split sep s).
Proof.
  induction s as [|c rest IH]; simpl.
  - by repeat constructor.
  - destruct (Ascii.eqb c sep) eqn:Hc.
    + by constructor.
    + destruct (split sep rest) as [|p ps] eqn:Hs; [by apply split_not_nil in Hs|].
      inversion IH as [|? ? Hp Hps]; subst.
      constructor; [|done]. simpl. by rewrite Hc, Hp.
Qed.

(** X3: a split has one piece more than the string has separators. *)
Theorem split_length (sep : ascii) (s : string) :
  length (split sep s) = S (count sep s).
Proof.
  induction s as [|c rest IH]; simpl; [done|].
  destruct (Ascii.eqb c sep); simpl.
  - by rewrite IH.
  - destruct (split sep rest) as [|p ps]; simpl in *; [done|]. by rewrite IH.
Qed.

(** ** The pre-sign-up hook beyond the allow-list test *)

(** X4: for an address [local@domain] with no further ["@"], the hook
    prints the event and then decides on [domain] alone: it returns
    the event when [domain] is in the allow-list and raises its
    rejection otherwise. *)
Theorem precheck_decides_on_domain
    (json_dumps : value → string) (event context : value) (w : World)
    (local domain : string) :
  email_attribute event = Ok (VStr (local ++ String "@" domain)) →
  contains "@" local = false →
  contains "@" domain = false →
  PreSignup.lambda_handler json_dumps event context w
    = (printed (String.concat " " ["Event: "; json_dumps event]) w,
       if bool_decide (domain ∈ PreSignup.allowed_domains)
       then Ok event
       else Raise (Exception PreSignup.rejection_message)).
Proof.
  intros Hattr Hl Hd. apply injective_projections; simpl.
  - apply handler_world.
  - rewrite handler_outcome, Hattr, (email_domain_usual _ _ Hl Hd).
    case_bool_decide as Hin.
    + by rewrite bool_decide_eq_false_2.
    + by rewrite bool_decide_eq_true_2.
Qed.

Lemma precheck_decides_on_domain_witness :
  PreSignup.lambda_handler no_dump (signup_event "root@localhost") VNone quiet_world
    = (printed "Event:  <event>" quiet_world,
       if bool_decide ("localhost" ∈ PreSignup.allowed_domains)
       then Ok (signup_event "root@localhost")
       else Raise (Exception PreSignup.rejection_message)).
Proof.
  apply (precheck_decides_on_domain no_dump (signup_event "root@localhost")
           VNone quiet_world "root" "localhost"); reflexivity.
Defined.

(** X5: whatever follows a second ["@"] is not looked at: for an
    address [local@domain@rest] the hook decides on [domain], so an
    address that continues after an allowed domain is let through. *)
Theorem precheck_ignores_text_after_second_at
    (json_dumps : value → string) (event context : value) (w : World)
    (local domain rest : string) :
  email_attribute event
    = Ok (VStr (local ++ String "@" (domain ++ String "@" rest))) →
  contains "@" local = false →
  contains "@" domain = false →
  snd (PreSignup.lambda_handler json_dumps event context w)
    = if bool_decide (domain ∈ PreSignup.allowed_domains)
      then Ok event
      else Raise (Exception PreSignup.rejection_message).
Proof.
  intros Hattr Hl Hd. rewrite handler_outcome, Hattr.
  unfold email_domain. rewrite (split_app _ _ _ Hl), (split_app _ _ _ Hd). simpl.
  case_bool_decide as Hin.
  - by rewrite bool_decide_eq_false_2.
  - by rewrite bool_decide_eq_true_2.
Qed.

Lemma precheck_ignores_text_after_second_at_witness :
  snd (PreSignup.lambda_handler no_dump
         (signup_event "eve@example.com@elsewhere.net") VNone quiet_world)
    = if bool_decide ("example.com" ∈ PreSignup.allowed_domains)
      then Ok (signup_event "eve@example.com@elsewhere.net")
      else Raise (Exception PreSignup.rejection_message).
Proof.
  apply (precheck_ignores_text_after_second_at no_dump
           (signup_event "eve@example.com@elsewhere.net") VNone quiet_world
           "eve" "example.com" "elsewhere.net"); reflexivity.
Defined.

(** X6: an event that is a dictionary but lacks one of the nested keys
    [request], [userAttributes], [email] makes the hook fail with
    [KeyError] for the first key that is missing. *)
Theorem precheck_missing_key
    (json_dumps : value → string) (context : value) (w : World)
    (d : gmap string value) :
  (d !! "request" = None →
     snd (PreSignup.lambda_handler json_dumps (VDict d) context w)
       = Raise (KeyError "request"))
  ∧ (∀ r, d !! "request" = Some (VDict r) →
       r !! "userAttributes" = None →
       snd (PreSignup.lambda_handler json_dumps (VDict d) context w)
         = Raise (KeyError "userAttributes"))
  ∧ (∀ r a, d !! "request" = Some (VDict r) →
       r !! "userAttributes" = Some (VDict a) →
       a !! "email" = None →
       snd (PreSignup.lambda_handler json_dumps (VDict d) context w)
         = Raise (KeyError "email")).
Proof.
  split_and!.
  - intros Hd. rewrite handler_outcome. unfold email_attribute. simpl.
    by rewrite Hd.
  - intros r Hd Hr. rewrite handler_outcome. unfold email_attribute. simpl.
    rewrite Hd. simpl. by rewrite Hr.
  - intros r a Hd Hr Ha. rewrite handler_outcome. unfold email_attribute. simpl.
    rewrite Hd. simpl. rewrite Hr. simpl. by rewrite Ha.
Qed.

Lemma precheck_missing_key_witness :
  snd (PreSignup.lambda_handler no_dump
         (VDict {[ "request" := VDict {[ "userName" := VStr "ada" ]} ]})
         VNone quiet_world)
    = Raise (KeyError "userAttributes").
Proof.
  apply (proj1 (proj2 (precheck_missing_key no_dump VNone quiet_world
                         {[ "request" := VDict {[ "userName" := VStr "ada" ]} ]}))
           {[ "userName" := VStr "ada" ]}); reflexivity.
Defined.

(** X7: an e-mail attribute that is present but not a string (a JSON
    null, number, list or object) makes the hook fail with
    [AttributeError]; an event that is not a dictionary makes it fail
    with [TypeError]. *)
Theorem precheck_wrong_types
    (json_dumps : value → string) (event context : value) (w : World) :
  (∀ v, email_attribute event = Ok v → (∀ s, v ≠ VStr s) →
     snd (PreSignup.lambda_handler json_dumps event context w) = Raise AttributeError)
  ∧ ((∀ d, event ≠ VDict d) →
     snd (PreSignup.lambda_handler json_dumps event context w) = Raise TypeError).
Proof.
  split.
  - intros v Hattr Hv. rewrite handler_outcome, Hattr.
    destruct v as [| | | |s| |]; try done. by destruct (Hv s).
  - intros Hevent. rewrite handler_outcome. unfold email_attribute.
    destruct event as [| | | | | |d]; try done. by destruct (Hevent d).
Qed.

Lemma precheck_wrong_types_witness :
  snd (PreSignup.lambda_handler no_dump
         (VDict {[ "request" :=
            VDict {[ "userAttributes" := VDict {[ "email" := VNone ]} ]} ]})
         VNone quiet_world)
    = Raise AttributeError.
Proof.
  apply (proj1 (precheck_wrong_types no_dump
           (VDict {[ "request" :=
              VDict {[ "userAttributes" := VDict {[ "email" := VNone ]} ]} ]})
           VNone quiet_world) VNone); [reflexivity|done].
Defined.

(** X8: whether it accepts, rejects or fails, the hook has printed
    exactly one line, the event as [json.dumps] renders it, and has
    not called the table. *)
Theorem precheck_always_logs_event
    (json_dumps : value → string) (event context : value) (w : World) :
  stdout (fst (PreSignup.lambda_handler json_dumps event context w))
    = (stdout w ++ [("Event: " ++ " " ++ json_dumps event)%string])%list
  ∧ put_log (fst (PreSignup.lambda_handler json_dumps event context w)) = put_log w.
Proof. by rewrite handler_world. Qed.

(** X9: the hook has no outcome but these: it returns the event it
    was given, raises its rejection, or fails with [KeyError] for one
    of the three nested keys, [TypeError], [AttributeError] or
    [IndexError]. *)
Theorem precheck_outcomes
    (json_dumps : value → string) (event context : value) (w : World) :
  snd (PreSignup.lambda_handler json_dumps event context w) ∈
    [Ok event; Raise (Exception PreSignup.rejection_message);
     Raise (KeyError "request"); Raise (KeyError "userAttributes");
     Raise (KeyError "email"); Raise TypeError; Raise AttributeError;
     Raise IndexError].
Proof.
  rewrite handler_outcome. unfold email_attribute.
  destruct (getitem event "request") as [request|e] eqn:H1.
  2:{ apply getitem_raises in H1 as [->| ->]; set_unfold; tauto. }
  destruct (getitem request "userAttributes") as [attrs|e] eqn:H2.
  2:{ apply getitem_raises in H2 as [->| ->]; set_unfold; tauto. }
  destruct (getitem attrs "email") as [email|e] eqn:H3.
  2:{ apply getitem_raises in H3 as [->| ->]; set_unfold; tauto. }
  destruct email as [| | | |s| |]; try (set_unfold; tauto).
  destruct (email_domain s); [|set_unfold; tauto].
  case_bool_decide; set_unfold; tauto.
Qed.

(** X10: the outcome depends on the e-mail attribute only: two events
    with the same e-mail attribute are both returned unchanged, or
    both fail with the same exception, whatever else they carry and
    whatever the context and the world. *)
Theorem precheck_depends_on_email_only
    (json_dumps : value → string) (event1 event2 context1 context2 : value)
    (w1 w2 : World) :
  email_attribute event1 = email_attribute event2 →
  (snd (PreSignup.lambda_handler json_dumps event1 context1 w1) = Ok event1
   ∧ snd (PreSignup.lambda_handler json_dumps event2 context2 w2) = Ok event2)
  ∨ ∃ e,
      snd (PreSignup.lambda_handler json_dumps event1 context1 w1) = Raise e
      ∧ snd (PreSignup.lambda_handler json_dumps event2 context2 w2) = Raise e.
Proof.
  intros Hsame. rewrite !handler_outcome, <- Hsame.
  destruct (email_attribute event1) as [[| | | |s| |]|e]; try by (right; eauto).
  destruct (email_domain s); [|by right; eauto].
  case_bool_decide; [right|left]; eauto.
Qed.

Lemma precheck_depends_on_email_only_witness :
  (snd (PreSignup.lambda_handler no_dump (signup_event "ada@example.com")
          VNone quiet_world)
     = Ok (signup_event "ada@example.com")
   ∧ snd (PreSignup.lambda_handler no_dump
            (VDict {[ "request" :=
               VDict (<[ "userAttributes" :=
                          VDict (<[ "email" := VStr "ada@example.com" ]>
                                 {[ "phone_number" := VStr "+15550100" ]}) ]>
                      {[ "clientMetadata" := VNone ]}) ]})
            (VInt 7) (failing_world "down"))
     = Ok (VDict {[ "request" :=
               VDict (<[ "userAttributes" :=
                          VDict (<[ "email" := VStr "ada@example.com" ]>
                                 {[ "phone_number" := VStr "+15550100" ]}) ]>
                      {[ "clientMetadata" := VNone ]}) ]}))
  ∨ ∃ e,
      snd (PreSignup.lambda_handler no_dump (signup_event "ada@example.com")
             VNone quiet_world) = Raise e
      ∧ snd (PreSignup.lambda_handler no_dump
               (VDict {[ "request" :=
                  VDict (<[ "userAttributes" :=
                             VDict (<[ "email" := VStr "ada@example.com" ]>
                                    {[ "phone_number" := VStr "+15550100" ]}) ]>
                         {[ "clientMetadata" := VNone ]}) ]})
               (VInt 7) (failing_world "down")) = Raise e.
Proof.
  apply (precheck_depends_on_email_only no_dump). vm_compute. reflexivity.
Defined.

(** ** The second attempt's [/submit_contact], in full *)

(** X15: the handler reads the four fields first_name, last_name,
    email, message and nothing else of the form: two requests that
    agree on these four are treated alike, in the response and in
    what is printed. *)
Theorem submit_contact_reads_four_fields (request1 request2 : Request) (w : World) :
  (∀ field, field ∈ contact_fields →
     form request1 !! field = form request2 !! field) →
  SecondAttempt.submit_contact request1 w = SecondAttempt.submit_contact request2 w.
Proof.
  intros Hsame. rewrite !submit_contact_cases.
  rewrite <- !Hsame by (unfold contact_fields; set_unfold; tauto). done.
Qed.

Lemma submit_contact_reads_four_fields_witness :
  SecondAttempt.submit_contact ada_hello quiet_world
    = SecondAttempt.submit_contact
        (form_of [("first_name", "Ada"); ("last_name", "Lovelace");
                  ("email", "ada@example.com"); ("message", "hello");
                  ("company", "Analytical Engines"); ("phone_number", "")])
        quiet_world.
Proof.
  apply (submit_contact_reads_four_fields ada_hello
           (form_of [("first_name", "Ada"); ("last_name", "Lovelace");
                     ("email", "ada@example.com"); ("message", "hello");
                     ("company", "Analytical Engines"); ("phone_number", "")])
           quiet_world).
  intros field Hfield. unfold contact_fields in Hfield. set_unfold.
  destruct Hfield as [->|[->|[->|[->|[]]]]]; reflexivity.
Defined.

(** X16: the handler has two kinds of outcome and no other. Either
    all four fields are present: it prints one line and returns the
    success response. Or it raises [BadRequestKeyError] for a field
    that is absent while every field read before it is present, and
    then the world is untouched. *)
Theorem submit_contact_outcomes (request : Request) (w : World) :
  ((∀ field, field ∈ contact_fields → is_Some (form request !! field))
   ∧ ∃ line,
       SecondAttempt.submit_contact request w
         = (printed line w, Ok (RvResponse (jsonify SecondAttempt.success_payload))))
  ∨ ∃ (i : nat) field,
      contact_fields !! i = Some field
      ∧ form request !! field = None
      ∧ (∀ (j : nat) earlier, (j < i)%nat → contact_fields !! j = Some earlier →
           is_Some (form request !! earlier))
      ∧ SecondAttempt.submit_contact request w = (w, Raise (BadRequestKeyError field)).
Proof.
  rewrite submit_contact_cases. unfold contact_fields.
  destruct (form request !! "first_name") as [fn|] eqn:Hf.
  2:{ right. exists 0%nat, "first_name". split_and!; [done..| |done]. intros j ? Hj. lia. }
  destruct (form request !! "last_name") as [ln|] eqn:Hl.
  2:{ right. exists 1%nat, "last_name". split_and!; [done..| |done].
      intros [|j] earlier Hj; [|lia]. intros [= <-]. by rewrite Hf. }
  destruct (form request !! "email") as [em|] eqn:He.
  2:{ right. exists 2%nat, "email". split_and!; [done..| |done].
      intros [|[|j]] earlier Hj; [| |lia]; intros [= <-]; by rewrite ?Hf, ?Hl. }
  destruct (form request !! "message") as [msg|] eqn:Hm.
  2:{ right. exists 3%nat, "message". split_and!; [done..| |done].
      intros [|[|[|j]]] earlier Hj; [| | |lia]; intros [= <-];
        by rewrite ?Hf, ?Hl, ?He. }
  left. split; [|by eexists].
  intros field Hfield. set_unfold.
  destruct Hfield as [->|[->|[->|[->|[]]]]]; by rewrite ?Hf, ?Hl, ?He, ?Hm.
Qed.

Lemma string_app_assoc (a b c : string) : ((a ++ b) ++ c = a ++ (b ++ c))%string.
Proof.
  induction a as [|x a IH]; [done|].
  change (String x ((a ++ b) ++ c) = String x (a ++ (b ++ c)))%string.
  by rewrite IH.
Qed.

(** X17: the printed line does not determine the submission: the
    fields are joined by plain separators, so a space inside
    first_name or last_name can be moved from one to the other without
    changing the line. *)
Theorem received_line_ambiguous (a b c email message : string) :
  SecondAttempt.received_line (a ++ " " ++ b) c email message
    = SecondAttempt.received_line a (b ++ " " ++ c) email message.
Proof.
  unfold SecondAttempt.received_line.
  by rewrite !string_app_assoc.
Qed.

(** ** scan_dynamodb.py *)

Section scan_script.
Context (py_str : value → string) (scan : string → result value).
Implicit Types (w : World) (pages : list (result value)).

(** Steps whose page has a [TableNames] entry are printed one by one,
    and the loop goes on with what follows. *)
Lemma print_pages_through pages names rest w :
  Forall2 (fun step listed => page_names step = Ok listed) pages names →
  ScanDynamodb.print_pages py_str (pages ++ rest) w
    = ScanDynamodb.print_pages py_str rest (printed_lines (py_str <$> names) w).
Proof.
  intros Hpages. revert w.
  induction Hpages as [|step listed pages names Hstep _ IH]; intros w.
  - destruct w. unfold printed_lines. simpl. by rewrite app_nil_r.
  - destruct step as [page|e]; [|done]. simpl in Hstep. simpl.
    unfold mbind, M_bind, lift at 1. rewrite Hstep. simpl.
    rewrite IH. unfold printed_lines. simpl. by rewrite <- app_assoc.
Qed.

(** The loop only ever adds lines to the console. *)
Lemma print_pages_frame pages w :
  stdout w `prefix_of` stdout (fst (ScanDynamodb.print_pages py_str pages w))
  ∧ put_log (fst (ScanDynamodb.print_pages py_str pages w)) = put_log w
  ∧ dynamodb (fst (ScanDynamodb.print_pages py_str pages w)) = dynamodb w.
Proof.
  revert w. induction pages as [|[page|e] pages IH]; intros w; simpl; [done| |done].
  unfold mbind, M_bind, lift at 1.
  destruct (getitem page "TableNames") as [names|e]; simpl; [|done].
  destruct (IH (printed (String.concat " " [py_str names]) w)) as (Hout & Hlog & Hdb).
  split_and!; [|done..].
  etrans; [|exact Hout]. simpl. by apply prefix_app_r.
Qed.

(** The script, statement by statement. *)
Lemma main_steps (client : result unit) pages w :
  ScanDynamodb.main py_str client pages scan w =
    match client with
    | Raise e => (w, Raise e)
    | Ok _ =>
      match ScanDynamodb.print_pages py_str pages w with
      | (w', Raise e) => (w', Raise e)
      | (w', Ok _) =>
        match scan "ConnectingTheDotsDBTable" with
        | Raise e => (w', Raise e)
        | Ok response =>
          match getitem response "Items" with
          | Raise e => (w', Raise e)
          | Ok items => (printed_lines [py_str items] w', Ok tt)
          end
        end
      end
    end.
Proof.
  unfold ScanDynamodb.main, mbind, M_bind, lift.
  destruct client as [[]|e]; [|done].
  destruct (ScanDynamodb.print_pages py_str pages w) as [w' [[]|e]]; [|done].
  destruct (scan "ConnectingTheDotsDBTable") as [response|e]; [|done].
  by destruct (getitem response "Items").
Qed.

End scan_script.

(** X19: when the client is built, every page of [list_tables] has a
    [TableNames] entry and the scan response has an [Items] entry, the
    script runs to its end and has printed one line per page, in page
    order, followed by one line for the items. *)
Theorem scan_script_prints_pages_then_items
    (py_str : value → string) (scan : string → result value)
    (pages : list (result value)) (names : list value)
    (response items : value) (w : World) :
  Forall2 (fun step listed => page_names step = Ok listed) pages names →
  scan "ConnectingTheDotsDBTable" = Ok response →
  getitem response "Items" = Ok items →
  ScanDynamodb.main py_str (Ok tt) pages scan w
    = (printed_lines ((py_str <$> names) ++ [py_str items]) w, Ok tt).
Proof.
  intros Hpages Hscan Hitems. rewrite main_steps.
  rewrite <- (app_nil_r pages), (print_pages_through _ _ _ _ _ Hpages). simpl.
  rewrite Hscan, Hitems. unfold printed_lines. simpl. by rewrite <- app_assoc.
Qed.

Lemma scan_script_prints_pages_then_items_witness :
  ScanDynamodb.main (fun _ => "<value>") (Ok tt)
      [Ok (tables_page ["ConnectingTheDotsDBTable"]); Ok (tables_page [])]
      (fun _ => Ok (scan_response [])) quiet_world
    = (printed_lines
         (((fun _ => "<value>") <$> [VList [VStr "ConnectingTheDotsDBTable"]; VList []])
            ++ ["<value>"])
         quiet_world,
       Ok tt).
Proof.
  apply (scan_script_prints_pages_then_items (fun _ => "<value>")
           (fun _ => Ok (scan_response []))
           [Ok (tables_page ["ConnectingTheDotsDBTable"]); Ok (tables_page [])]
           [VList [VStr "ConnectingTheDotsDBTable"]; VList []]
           (scan_response []) (VList []) quiet_world).
  - repeat constructor.
  - reflexivity.
  - reflexivity.
Defined.

(** X20: the first step of the page loop that fails, because fetching
    the page raises or because the page has no [TableNames], ends the
    script with that exception: the earlier pages have been printed,
    no later page is, and the scan's answer plays no part. *)
Theorem scan_script_stops_at_failing_page
    (py_str : value → string) (scan : string → result value)
    (pages rest : list (result value)) (names : list value)
    (step : result value) (e : exn) (w : World) :
  Forall2 (fun step listed => page_names step = Ok listed) pages names →
  page_names step = Raise e →
  ScanDynamodb.main py_str (Ok tt) (pages ++ step :: rest) scan w
    = (printed_lines (py_str <$> names) w, Raise e).
Proof.
  intros Hpages Hstep. rewrite main_steps.
  rewrite (print_pages_through _ _ _ _ _ Hpages).
  destruct step as [page|e']; simpl in *.
  - unfold mbind, M_bind, lift. by rewrite Hstep.
  - by injection Hstep as ->.
Qed.

Lemma scan_script_stops_at_failing_page_witness :
  ScanDynamodb.main (fun _ => "<value>") (Ok tt)
      ([Ok (tables_page ["Contacts"])]
         ++ Ok (VDict ∅) :: [Ok (tables_page ["Orders"])])
      (fun _ => Ok (scan_response [])) quiet_world
    = (printed_lines ((fun _ => "<value>") <$> [VList [VStr "Contacts"]]) quiet_world,
       Raise (KeyError "TableNames")).
Proof.
  apply (scan_script_stops_at_failing_page (fun _ => "<value>")
           (fun _ => Ok (scan_response []))
           [Ok (tables_page ["Contacts"])] [Ok (tables_page ["Orders"])]
           [VList [VStr "Contacts"]] (Ok (VDict ∅)) (KeyError "TableNames")
           quiet_world).
  - repeat constructor.
  - reflexivity.
Defined.

(** X21: when all pages go through but the scan raises, or its
    response has no [Items], the script ends with that exception
    after the page lines, and prints nothing for the scan. *)
Theorem scan_script_scan_failure
    (py_str : value → string) (scan : string → result value)
    (pages : list (result value)) (names : list value) (e : exn) (w : World) :
  Forall2 (fun step listed => page_names step = Ok listed) pages names →
  match scan "ConnectingTheDotsDBTable" with
  | Ok response => getitem response "Items"
  | Raise e' => Raise e'
  end = Raise e →
  ScanDynamodb.main py_str (Ok tt) pages scan w
    = (printed_lines (py_str <$> names) w, Raise e).
Proof.
  intros Hpages Hscan. rewrite main_steps.
  rewrite <- (app_nil_r pages), (print_pages_through _ _ _ _ _ Hpages). simpl.
  destruct (scan "ConnectingTheDotsDBTable") as [response|e']; simpl.
  - by rewrite Hscan.
  - by injection Hscan as ->.
Qed.

Lemma scan_script_scan_failure_witness :
  ScanDynamodb.main (fun _ => "<value>") (Ok tt)
      [Ok (tables_page ["Contacts"])]
      (fun _ => Raise (Exception "ResourceNotFoundException")) quiet_world
    = (printed_lines ((fun _ => "<value>") <$> [VList [VStr "Contacts"]]) quiet_world,
       Raise (Exception "ResourceNotFoundException")).
Proof.
  apply (scan_script_scan_failure (fun _ => "<value>")
           (fun _ => Raise (Exception "ResourceNotFoundException"))
           [Ok (tables_page ["Contacts"])] [VList [VStr "Contacts"]]
           (Exception "ResourceNotFoundException") quiet_world).
  - repeat constructor.
  - reflexivity.
Defined.

(** X22: the script only reads: whatever the client, the pages and
    the scan do, it issues no [put_item], and the lines that were on
    the console stay there, in place, before anything it prints. *)
Theorem scan_script_read_only
    (py_str : value → string) (client : result unit)
    (pages : list (result value)) (scan : string → result value) (w : World) :
  put_log (fst (ScanDynamodb.main py_str client pages scan w)) = put_log w
  ∧ stdout w `prefix_of` stdout (fst (ScanDynamodb.main py_str client pages scan w)).
Proof.
  rewrite main_steps.
  destruct client as [[]|e]; [|done].
  destruct (print_pages_frame py_str pages w) as (Hout & Hlog & _).
  destruct (ScanDynamodb.print_pages py_str pages w) as [w' [[]|e]]; simpl in *;
    [|done].
  destruct (scan "ConnectingTheDotsDBTable") as [response|e]; simpl; [|done].
  destruct (getitem response "Items") as [items|e]; simpl; [|done].
  split; [done|]. etrans; [exact Hout|]. by apply prefix_app_r.
Qed.

(** ** Sequences of submissions *)

(** X24: over any sequence of submissions to the second attempt's
    [/submit_contact], the console gains one line for each form that
    has all four fields, in the order they arrived, and nothing for
    the others; the table is never called. *)
Theorem second_attempt_console_of_sequence (requests : list Request) (w : World) :
  stdout (run_all (SecondAttempt.submit_contact <$> requests) w)
    = (stdout w ++ omap submission_line requests)%list
  ∧ put_log (run_all (SecondAttempt.submit_contact <$> requests) w) = put_log w.
Proof.
  revert w. induction requests as [|request requests IH]; intros w.
  - simpl. by rewrite app_nil_r.
  - rewrite fmap_cons. cbn [run_all].
    destruct (IH (fst (SecondAttempt.submit_contact request w))) as [-> ->].
    rewrite submit_contact_cases. cbn [omap list_omap]. unfold submission_line.
    destruct (form request !! "first_name"); simpl; [|done].
    destruct (form request !! "last_name"); simpl; [|done].
    destruct (form request !! "email"); simpl; [|done].
    destruct (form request !! "message"); simpl; [|done].
    by rewrite <- app_assoc.
Qed.
